(** * NEX_SIGHT: the generated-code execution engine

    A shallow embedding of [backend/secure_executor.py] and the properties
    of its only function, [run_generated_code].

    The function calls into its host: the [exec] builtin, [print],
    [io.StringIO], [contextlib.redirect_stdout] and three entry points of
    [matplotlib.pyplot].  The process state these act on is modelled
    explicitly; what the executed code does is a parameter ([host]), so
    every general theorem holds for whatever code the host runs.

    Two more modules of the backend follow the engine: the start-up and
    shutdown hook of [backend/main.py] and the database settings of
    [backend/db/session.py]. *)

From Stdlib Require Import ZArith Ascii String Floats DecimalString.
From stdpp Require Import gmap strings list fin_maps sorting.

Local Open Scope string_scope.

(** ** Python values and exceptions *)

(** The values a context binds in this development.  A DataFrame is
    represented by its column labels, the only part the engine inspects. *)
Inductive value :=
  | VNone
  | VInt (z : Z)
  | VStr (s : string)
  | VModule (name : string)
  | VFrame (columns : list string).

(** A raised exception: the name of its class, whether it is an instance of
    [Exception] (as opposed to deriving from [BaseException] only, like
    [SystemExit] and [KeyboardInterrupt]), and [str(e)]. *)
Record exn := Exn {
  exn_class : string;
  exn_is_Exception : bool;
  exn_str : string
}.

(** What a call does: it returns a value or raises. *)
Inductive result (A : Type) :=
  | Ok (a : A)
  | Raised (e : exn).
Arguments Ok {A} a.
Arguments Raised {A} e.

(** ** Process state *)

(** [sys.stdout] is the console or an [io.StringIO] object, named by its
    address in [heap]. *)
Inductive stream :=
  | Console
  | StringIO (addr : nat).

(** A pyplot figure: its number and what has been drawn on it. *)
Record figure := Figure {
  fig_num : nat;
  fig_canvas : string
}.

(** The state executed code can reach besides its namespaces: pyplot's figure
    registry (most recently activated figure first, as [Gcf.figs] keeps the
    active manager at its end), the files written so far (an image file is
    represented by the figure saved in it) and the paths the operating system
    refuses to open for writing, with the error it answers. *)
Record ambient := Ambient {
  registry : list figure;
  files : gmap string figure;
  faults : gmap string exn
}.

Record world := World {
  sys_stdout : stream;
  console : string;
  heap : list string;
  amb : ambient
}.

Definition set_stdout (s : stream) (w : world) : world :=
  World s (console w) (heap w) (amb w).

Definition set_amb (a : ambient) (w : world) : world :=
  World (sys_stdout w) (console w) (heap w) a.

(** The world with one more [io.StringIO] object, empty, at the next free
    address. *)
Definition allocated (w : world) : world :=
  World (sys_stdout w) (console w) (heap w ++ [""]) (amb w).

(** [sys.stdout.write(text)].  [sys.stdout] is taken to name an object that
    exists ([stdout_allocated] below); a write to one that does not is
    lost. *)
Definition write (text : string) (w : world) : world :=
  match sys_stdout w with
  | Console => World Console (console w +:+ text) (heap w) (amb w)
  | StringIO a =>
      World (StringIO a) (console w)
            (alter (fun old => old +:+ text) a (heap w)) (amb w)
  end.

(** ** The monad of Python computations

    A computation acts on the caller's dict object and on the process state.
    When it raises, the state reached so far stays: nothing is rolled back. *)
Definition Py (A : Type) : Type :=
  gmap string value -> world -> result A * gmap string value * world.

#[export] Instance py_ret : MRet Py := fun A (a : A) d w => (Ok a, d, w).

#[export] Instance py_bind : MBind Py := fun A B (k : A -> Py B) (m : Py A) d w =>
  match m d w with
  | (Ok a, d', w') => k a d' w'
  | (Raised e, d', w') => (Raised e, d', w')
  end.

Definition raise {A} (e : exn) : Py A := fun d w => (Raised e, d, w).

(** [try: body  except Exception as e: handler e].  Only instances of
    [Exception] are caught; any other exception goes on to the caller. *)
Definition try_except_Exception {A} (body : Py A) (handler : exn -> Py A) : Py A :=
  fun d w =>
    match body d w with
    | (Ok a, d', w') => (Ok a, d', w')
    | (Raised e, d', w') =>
        if exn_is_Exception e then handler e d' w' else (Raised e, d', w')
    end.

(** ** Host primitives *)

(** [io.StringIO()]: a new, empty buffer. *)
Definition StringIO_new : Py nat :=
  fun d w => (Ok (length (heap w)), d, allocated w).

(** [buf.getvalue()]. *)
Definition getvalue (buf : nat) : Py string :=
  fun d w => (Ok (default "" (heap w !! buf)), d, w).

Definition newline : string := String "010"%char "".

(** [print(a, b, ...)] writes the arguments, separated by spaces and followed by
    a newline, to [sys.stdout]. *)
Definition print_line (args : list string) : string :=
  String.concat " " args +:+ newline.

Definition print (args : list string) : Py unit :=
  fun d w => (Ok tt, d, write (print_line args) w).

(** [with contextlib.redirect_stdout(buf): body].  The previous target of
    [sys.stdout] is put back when the block is left, normally or not. *)
Definition with_redirect_stdout {A} (buf : nat) (body : Py A) : Py A :=
  fun d w =>
    let old := sys_stdout w in
    match body d (set_stdout (StringIO buf) w) with
    | (r, d', w') => (r, d', set_stdout old w')
    end.

(** [key in local_vars]. *)
Definition dict_contains (key : string) : Py bool :=
  fun d w => (Ok (bool_decide (is_Some (d !! key))), d, w).

(** [local_vars[key]]. *)
Definition dict_getitem (key : string) : Py value :=
  fun d w =>
    match d !! key with
    | Some v => (Ok v, d, w)
    | None => (Raised (Exn "KeyError" true ("'" +:+ key +:+ "'")), d, w)
    end.

(** [local_vars.get(key, dflt)]. *)
Definition dict_get (key : string) (dflt : value) : Py value :=
  fun d w => (Ok (default dflt (d !! key)), d, w).

Definition type_name (v : value) : string :=
  match v with
  | VNone => "NoneType"
  | VInt _ => "int"
  | VStr _ => "str"
  | VModule _ => "module"
  | VFrame _ => "DataFrame"
  end.

(** The [AttributeError] raised when [v] has no attribute [attr]. *)
Definition no_attribute (v : value) (attr : string) : exn :=
  match v with
  | VModule m =>
      Exn "AttributeError" true
        ("module '" +:+ m +:+ "' has no attribute '" +:+ attr +:+ "'")
  | _ =>
      Exn "AttributeError" true
        ("'" +:+ type_name v +:+ "' object has no attribute '" +:+ attr +:+ "'")
  end.

(** [v.columns.tolist()]: only a DataFrame has the attribute. *)
Definition columns_tolist (v : value) : Py (list string) :=
  match v with
  | VFrame cols => mret cols
  | _ => raise (no_attribute v "columns")
  end.

(** *** pyplot *)

(** [plt.get_fignums()]: the numbers of the open figures, sorted. *)
Definition get_fignums : Py (list nat) :=
  fun d w => (Ok (merge_sort Nat.le (fig_num <$> registry (amb w))), d, w).

(** [plt.gcf()]: the active figure; a first figure is opened when none is. *)
Definition gcf (a : ambient) : figure * ambient :=
  match registry a with
  | f :: _ => (f, a)
  | [] => let f := Figure 1 "" in (f, Ambient [f] (files a) (faults a))
  end.

(** [plt.savefig(path)] writes the active figure to [path]. *)
Definition savefig (path : string) : Py unit :=
  fun d w =>
    let '(f, a) := gcf (amb w) in
    match faults a !! path with
    | Some e => (Raised e, d, set_amb a w)
    | None =>
        (Ok tt, d, set_amb (Ambient (registry a) (<[path := f]> (files a)) (faults a)) w)
    end.

(** [plt.close()] closes the active figure, and only that one. *)
Definition close : Py unit :=
  fun d w =>
    let a := amb w in
    (Ok tt, d, set_amb (Ambient (tail (registry a)) (files a) (faults a)) w).

(** *** exec *)

(** What one run of [exec(code, globals, locals)] does: the locals mapping it
    leaves, the text it wrote to [sys.stdout], the ambient state it leaves,
    and the exception it ended with, if any.  A run that raises has still
    made the changes that precede the exception.  Only runs that end are
    described: the engine sets no time limit, and code that never ends never
    gives control back to it. *)
Record exec_result := ExecResult {
  x_locals : gmap string value;
  x_stdout : string;
  x_amb : ambient;
  x_raised : option exn
}.

(** The host: the [exec] builtin, and how [print] renders a list of column
    labels. *)
Record host := Host {
  host_exec : string -> gmap string value -> gmap string value -> ambient -> exec_result;
  host_repr : list string -> string
}.

(** [exec(code, globals, local_vars)] on the caller's dict. *)
Definition exec (h : host) (code : string) (globals : gmap string value) : Py unit :=
  fun d w =>
    let r := host_exec h code globals d (amb w) in
    let w' := write (x_stdout r) (set_amb (x_amb r) w) in
    match x_raised r with
    | None => (Ok tt, x_locals r, w')
    | Some e => (Raised e, x_locals r, w')
    end.

(** ** The engine: [backend/secure_executor.py] *)

(** Line 21. *)
Definition plot_path : string := "data/plot.png".

(** [run_generated_code(code, local_vars)], lines 6-31.  The dict
    [local_vars] is the caller's object, which [exec] changes in place: it is
    the dict of the state, so a call reads
    [run_generated_code h code local_vars w].

    The buffer is created first (line 9); the test for ['df'] follows
    (lines 11-12); the column notice (line 14) stands before the [try]; the
    [with] block holds the [exec] alone (lines 17-18); the figure step and
    the reading of ['result'] and ['summary'] (lines 20-27) are inside the
    [try], after the [with] block. *)
Definition run_generated_code (h : host) (code : string) : Py (value * value) :=
  output_buffer ← StringIO_new;
  has_df ← dict_contains "df";
  if negb has_df then
    mret (VStr "No DataFrame provided", VStr "Missing df")
  else
    df ← dict_getitem "df";
    cols ← columns_tolist df;
    print ["[🔍] Columns in df before exec:"; host_repr h cols];;
    try_except_Exception (
      with_redirect_stdout output_buffer (exec h code ∅);;
      fignums ← get_fignums;
      (if bool_decide (fignums ≠ []) then
         savefig plot_path;;
         close
       else mret ());;
      captured ← getvalue output_buffer;
      result ← dict_get "result" (VStr captured);
      summary ← dict_get "summary" (VStr "No summary provided.");
      mret (result, summary)
    ) (λ e,
      print ["❌ Code execution error:"; exn_str e];;
      mret (VStr "Error occurred during code execution.", VStr (exn_str e))
    ).

(** ** A small host

    An interpreter for a line-oriented fragment of Python, used to run the
    engine on concrete programs.  On the fragment it does what CPython does;
    a program outside the fragment is refused before anything runs, the way
    a restricted interpreter refuses at compile time. *)
Module MiniPy.

Inductive stmt :=
  | SAssign (name : string) (v : value)   (* NAME = 'text'  or  NAME = 123 *)
  | SDel (name : string)                  (* del NAME *)
  | SPrint (text : string)                (* print('text') *)
  | SRaise (cls : string) (msg : string)  (* raise CLASS('text') *)
  | SImportPlt                            (* import matplotlib.pyplot as plt *)
  | SFigure.                              (* plt.figure() *)

(** *** Lexing *)

Definition in_range (lo hi : nat) (c : ascii) : bool :=
  let n := nat_of_ascii c in (lo <=? n)%nat && (n <=? hi)%nat.

Definition is_digit (c : ascii) : bool := in_range 48 57 c.

Definition is_ident_start (c : ascii) : bool :=
  in_range 65 90 c || in_range 97 122 c || Ascii.eqb c "_"%char.

Definition is_ident_char (c : ascii) : bool := is_ident_start c || is_digit c.

(** Characters a quoted literal of the fragment may hold: no quote, no
    backslash, no control character. *)
Definition is_plain_char (c : ascii) : bool :=
  in_range 32 126 c && negb (Ascii.eqb c "'"%char) && negb (Ascii.eqb c "\"%char).

Fixpoint span (p : ascii -> bool) (s : string) : string * string :=
  match s with
  | String c s' =>
      if p c then let '(a, b) := span p s' in (String c a, b) else ("", s)
  | EmptyString => ("", "")
  end.

Fixpoint strip_prefix (p s : string) : option string :=
  match p, s with
  | EmptyString, _ => Some s
  | String a p', String b s' => if Ascii.eqb a b then strip_prefix p' s' else None
  | String _ _, EmptyString => None
  end.

Fixpoint lines_from (cur : string) (s : string) : list string :=
  match s with
  | EmptyString => [String.rev cur]
  | String c s' =>
      if Ascii.eqb c "010"%char then String.rev cur :: lines_from "" s'
      else lines_from (String c cur) s'
  end.

Definition keywords : list string :=
  ["False"; "None"; "True"; "and"; "as"; "assert"; "async"; "await"; "break";
   "class"; "continue"; "def"; "del"; "elif"; "else"; "except"; "finally";
   "for"; "from"; "global"; "if"; "import"; "in"; "is"; "lambda"; "nonlocal";
   "not"; "or"; "pass"; "raise"; "return"; "try"; "while"; "with"; "yield"].

(** An identifier at the head of [s], and what follows it. *)
Definition ident (s : string) : option (string * string) :=
  match s with
  | String c _ =>
      if is_ident_start c then
        let '(name, rest) := span is_ident_char s in
        if bool_decide (name ∈ keywords) then None else Some (name, rest)
      else None
  | EmptyString => None
  end.

(** A literal ['text'] at the head of [s], and what follows it. *)
Definition quoted (s : string) : option (string * string) :=
  rest ← strip_prefix "'" s;
  let '(text, rest) := span is_plain_char rest in
  rest ← strip_prefix "'" rest;
  Some (text, rest).

Fixpoint digits_value (acc : Z) (s : string) : Z :=
  match s with
  | String c s' => digits_value (10 * acc + Z.of_nat (nat_of_ascii c - 48)) s'
  | EmptyString => acc
  end.

Fixpoint all_zero (s : string) : bool :=
  match s with
  | String c s' => Ascii.eqb c "0"%char && all_zero s'
  | EmptyString => true
  end.

(** A decimal literal taking the whole of [s].  A leading zero is allowed
    in a literal made of zeros only. *)
Definition number (s : string) : option Z :=
  match span is_digit s with
  | (String c ds, EmptyString) =>
      if Ascii.eqb c "0"%char && negb (all_zero ds) then None
      else Some (digits_value 0 (String c ds))
  | _ => None
  end.

Definition parse_rhs (s : string) : option value :=
  match quoted s with
  | Some (text, EmptyString) => Some (VStr text)
  | Some _ => None
  | None => VInt <$> number s
  end.

Definition parse_line (l : string) : option stmt :=
  if String.eqb l "import matplotlib.pyplot as plt" then Some SImportPlt
  else if String.eqb l "plt.figure()" then Some SFigure
  else match strip_prefix "del " l with
  | Some rest =>
      match ident rest with
      | Some (name, EmptyString) => Some (SDel name)
      | _ => None
      end
  | None =>
  match strip_prefix "raise " l with
  | Some rest =>
      '(cls, rest) ← ident rest;
      rest ← strip_prefix "(" rest;
      '(msg, rest) ← quoted rest;
      if String.eqb rest ")" then Some (SRaise cls msg) else None
  | None =>
  match strip_prefix "print(" l with
  | Some rest =>
      '(text, rest) ← quoted rest;
      if String.eqb rest ")" then Some (SPrint text) else None
  | None =>
      '(name, rest) ← ident l;
      rest ← strip_prefix " = " rest;
      SAssign name <$> parse_rhs rest
  end end end.

(** Blank lines are skipped. *)
Fixpoint parse_lines (ls : list string) : option (list stmt) :=
  match ls with
  | [] => Some []
  | l :: ls' =>
      if String.eqb l "" then parse_lines ls'
      else s ← parse_line l; p ← parse_lines ls'; Some (s :: p)
  end.

Definition parse (code : string) : option (list stmt) :=
  parse_lines (lines_from "" code).

(** *** Running a program *)

(** The namespaces of the run, the text written to [sys.stdout] so far and
    the ambient state. *)
Record frame := Frame {
  f_globals : gmap string value;
  f_locals : gmap string value;
  f_out : string;
  f_amb : ambient
}.

(** Name resolution at the top level of [exec]: locals, then globals; the
    builtins come last and are handled where they are used. *)
Definition lookup_name (n : string) (fr : frame) : option value :=
  match f_locals fr !! n with
  | Some v => Some v
  | None => f_globals fr !! n
  end.

Definition name_error (n : string) : exn :=
  Exn "NameError" true ("name '" +:+ n +:+ "' is not defined").

Definition not_callable (v : value) : exn :=
  Exn "TypeError" true ("'" +:+ type_name v +:+ "' object is not callable").

(** The builtin exception classes of the fragment, with whether each
    derives from [Exception].  For all of them [str(C('text'))] is the
    text. *)
Definition builtin_exceptions : gmap string bool :=
  list_to_map
    [("BaseException", false); ("SystemExit", false);
     ("KeyboardInterrupt", false); ("GeneratorExit", false);
     ("Exception", true); ("ValueError", true); ("TypeError", true);
     ("RuntimeError", true); ("ZeroDivisionError", true)].

Definition set_locals (l : gmap string value) (fr : frame) : frame :=
  Frame (f_globals fr) l (f_out fr) (f_amb fr).

(** [plt.figure()]: a new figure, numbered after the highest open one,
    becomes the active figure. *)
Definition new_figure (a : ambient) : ambient :=
  let num := S (foldr Nat.max 0 (fig_num <$> registry a)) in
  Ambient (Figure num "" :: registry a) (files a) (faults a).

Definition step (s : stmt) (fr : frame) : frame * option exn :=
  match s with
  | SAssign n v => (set_locals (<[n := v]> (f_locals fr)) fr, None)
  | SDel n =>
      match f_locals fr !! n with
      | Some _ => (set_locals (delete n (f_locals fr)) fr, None)
      | None => (fr, Some (name_error n))
      end
  | SPrint text =>
      match lookup_name "print" fr with
      | Some v => (fr, Some (not_callable v))
      | None =>
          (Frame (f_globals fr) (f_locals fr) (f_out fr +:+ text +:+ newline)
                 (f_amb fr), None)
      end
  | SRaise cls msg =>
      match lookup_name cls fr with
      | Some v => (fr, Some (not_callable v))
      | None =>
          match builtin_exceptions !! cls with
          | Some b => (fr, Some (Exn cls b msg))
          | None => (fr, Some (name_error cls))
          end
      end
  | SImportPlt =>
      (set_locals (<["plt" := VModule "matplotlib.pyplot"]> (f_locals fr)) fr, None)
  | SFigure =>
      match lookup_name "plt" fr with
      | None => (fr, Some (name_error "plt"))
      | Some (VModule m) =>
          if String.eqb m "matplotlib.pyplot" then
            (Frame (f_globals fr) (f_locals fr) (f_out fr) (new_figure (f_amb fr)), None)
          else (fr, Some (no_attribute (VModule m) "figure"))
      | Some v => (fr, Some (no_attribute v "figure"))
      end
  end.

(** Statements run in order; the first exception ends the run. *)
Fixpoint run (p : list stmt) (fr : frame) : frame * option exn :=
  match p with
  | [] => (fr, None)
  | s :: p' =>
      match step s fr with
      | (fr', None) => run p' fr'
      | stopped => stopped
      end
  end.

Definition exec (code : string) (globals locals : gmap string value)
    (a : ambient) : exec_result :=
  match parse code with
  | None => ExecResult locals "" a (Some (Exn "SyntaxError" true "invalid syntax"))
  | Some p =>
      let '(fr, r) := run p (Frame globals locals "" a) in
      ExecResult (f_locals fr) (f_out fr) (f_amb fr) r
  end.

(** *** [repr] of a list of labels *)

Definition hex_digit (n : nat) : ascii :=
  ascii_of_nat (if (n <? 10)%nat then 48 + n else 87 + n).

Definition dquote : ascii := "034"%char.

Fixpoint has_char (c : ascii) (s : string) : bool :=
  match s with
  | String c' s' => Ascii.eqb c c' || has_char c s'
  | EmptyString => false
  end.

Definition escape_char (q c : ascii) : string :=
  let n := nat_of_ascii c in
  if Ascii.eqb c "\"%char then "\\"
  else if Ascii.eqb c q then String "\" (String q "")
  else if Ascii.eqb c "010"%char then "\n"
  else if Ascii.eqb c "013"%char then "\r"
  else if Ascii.eqb c "009"%char then "\t"
  else if (n <? 32)%nat || (n =? 127)%nat then
    String "\" (String "x" (String (hex_digit (n / 16)) (String (hex_digit (n mod 16)) "")))
  else String c "".

Fixpoint escape (q : ascii) (s : string) : string :=
  match s with
  | String c s' => escape_char q c +:+ escape q s'
  | EmptyString => ""
  end.

(** [repr(s)]: single quotes, unless the text holds a single quote and no
    double quote.  Bytes above 127 are taken to belong to printable
    characters, which [repr] leaves as they are. *)
Definition repr_str (s : string) : string :=
  let q := if has_char "'" s && negb (has_char dquote s) then dquote else "'"%char in
  String q (escape q s +:+ String q "").

Definition repr_list (l : list string) : string :=
  "[" +:+ String.concat ", " (repr_str <$> l) +:+ "]".

Definition interp : host := Host exec repr_list.

End MiniPy.

(** ** Reading the state of a call *)

(** The executed code's run inside a call entered with dict [d] in world
    [w]: empty globals, the caller's dict as locals.  (The ambient state is
    still the caller's when [exec] starts.) *)
Definition code_run (h : host) (code : string) (d : gmap string value)
    (w : world) : exec_result :=
  host_exec h code ∅ d (amb w).

(** [sys.stdout] names the console or a buffer that exists. *)
Definition stdout_allocated (w : world) : Prop :=
  match sys_stdout w with
  | Console => True
  | StringIO a => a < length (heap w)
  end.

(** The text [sys.stdout] has received so far. *)
Definition stdout_text (w : world) : string :=
  match sys_stdout w with
  | Console => console w
  | StringIO a => default "" (heap w !! a)
  end.

(** The parts of a call's result. *)
Definition outcome_of {A} (x : result A * gmap string value * world) : result A := x.1.1.
Definition dict_of {A} (x : result A * gmap string value * world) : gmap string value := x.1.2.
Definition world_of {A} (x : result A * gmap string value * world) : world := x.2.

(** The world once the column notice is out as well. *)
Definition started (h : host) (cols : list string) (w : world) : world :=
  write (print_line ["[🔍] Columns in df before exec:"; host_repr h cols])
        (allocated w).

(** The world when the [with] block is left: the code has run with
    [sys.stdout] on the output buffer, and [sys.stdout] is back. *)
Definition executed (h : host) (code : string) (d : gmap string value)
    (cols : list string) (w : world) : world :=
  let r := code_run h code d w in
  set_stdout (sys_stdout w)
    (write (x_stdout r)
       (set_amb (x_amb r)
          (set_stdout (StringIO (length (heap w))) (started h cols w)))).

(** The world after the error notice of the [except] clause. *)
Definition reported (e : exn) (w : world) : world :=
  write (print_line ["❌ Code execution error:"; exn_str e]) w.

(** The exception the body of the [try] ends with, if any: the one the code
    raised, or else the one the plot file answers when a figure is open. *)
Definition raised_in_try (r : exec_result) : option exn :=
  match x_raised r with
  | Some e => Some e
  | None =>
      match registry (x_amb r) with
      | [] => None
      | _ :: _ => faults (x_amb r) !! plot_path
      end
  end.

(** The ambient state after [savefig] and [close] on a writable path. *)
Definition saved (a : ambient) : ambient :=
  Ambient (tail (registry a))
          (<[plot_path := default (Figure 1 "") (head (registry a))]> (files a))
          (faults a).

(** ** The engine as a relation

    Every call takes one of five paths.  [run_spec] lists them with what each
    returns and leaves; [run_generated_code_spec] shows the function follows
    it, so a fact about all calls is proved by inversion on the path. *)

(** The world a successful call leaves. *)
Definition finished (h : host) (code : string) (d : gmap string value)
    (cols : list string) (w : world) : world :=
  let r := code_run h code d w in
  match registry (x_amb r) with
  | [] => executed h code d cols w
  | _ :: _ => set_amb (saved (x_amb r)) (executed h code d cols w)
  end.

Inductive run_spec (h : host) (code : string) (d : gmap string value) (w : world)
  : result (value * value) * gmap string value * world → Prop :=
  | path_missing_df :
      d !! "df" = None →
      run_spec h code d w
        (Ok (VStr "No DataFrame provided", VStr "Missing df"), d, allocated w)
  | path_not_frame v :
      d !! "df" = Some v →
      (∀ cols, v ≠ VFrame cols) →
      run_spec h code d w (Raised (no_attribute v "columns"), d, allocated w)
  | path_caught cols e :
      d !! "df" = Some (VFrame cols) →
      raised_in_try (code_run h code d w) = Some e →
      exn_is_Exception e = true →
      run_spec h code d w
        (Ok (VStr "Error occurred during code execution.", VStr (exn_str e)),
         x_locals (code_run h code d w),
         reported e (executed h code d cols w))
  | path_escaped cols e :
      d !! "df" = Some (VFrame cols) →
      raised_in_try (code_run h code d w) = Some e →
      exn_is_Exception e = false →
      run_spec h code d w
        (Raised e, x_locals (code_run h code d w), executed h code d cols w)
  | path_returned cols :
      d !! "df" = Some (VFrame cols) →
      raised_in_try (code_run h code d w) = None →
      run_spec h code d w
        (Ok (default (VStr (default "" (heap (executed h code d cols w)
                                          !! length (heap w))))
                     (x_locals (code_run h code d w) !! "result"),
             default (VStr "No summary provided.")
                     (x_locals (code_run h code d w) !! "summary")),
         x_locals (code_run h code d w),
         finished h code d cols w).

(** *** Two calls in a row *)



(** ** Sample states *)

(** A context with a two-column DataFrame. *)
Definition frame_ab : gmap string value := {[ "df" := VFrame ["a"; "b"] ]}.

(** A fresh process: output on the console, no figure, the [data/]
    directory in place. *)
Definition quiet : world := World Console "" [] (Ambient [] ∅ ∅).

(** The same process started where there is no [data/] directory. *)
Definition no_data_dir : world :=
  World Console "" []
    (Ambient [] ∅
       {[ plot_path :=
            Exn "FileNotFoundError" true
              "[Errno 2] No such file or directory: 'data/plot.png'" ]}).

Definition plots_once : string :=
  "import matplotlib.pyplot as plt" +:+ newline +:+ "plt.figure()".

Definition plots_twice : string :=
  plots_once +:+ newline +:+ "plt.figure()".



Definition looks_like_failure : string :=
  "result = 'Error occurred during code execution.'" +:+ newline
  +:+ "summary = 'bad'".

Definition plots_then_fails : string :=
  plots_once +:+ newline +:+ "raise ValueError('bad')".



(** ** Start-up and shutdown: [backend/main.py]

    [lifespan] creates the tables before the application serves, trying
    again while the database refuses the connection.  What the database
    answers at each pass through the [try] is a parameter; what the hook
    does is recorded as a trace. *)
Module Lifespan.

(** One pass through the [try] of lines 20-24: the tables were created, the
    driver raised [OperationalError] (with [str(e)]), or something else was
    raised. *)
Inductive attempt :=
  | Connected
  | Operational (msg : string)
  | Crashed (e : exn).

(** What the hook does that can be seen from outside: it opens a connection
    ([engine.begin()]), prints a line, sleeps, disposes of the engine. *)
Inductive event :=
  | Attempted
  | Printed (line : string)
  | Slept (seconds : float)
  | Disposed.

(** An [int] in an f-string. *)
Definition show_nat (n : nat) : string := NilZero.string_of_uint (Nat.to_uint n).

(** Line 29, [min(delay * 1.6, 5.0)] on binary64 floats: [min] keeps its
    first argument unless the second is smaller. *)
Definition next_delay (delay : float) : float :=
  let grown := (delay * 0x1.999999999999ap+0)%float in
  if (5 <? grown)%float then 5%float else grown.

(** Line 27. *)
Definition not_ready_line (attempts : nat) (msg : string) : string :=
  "[lifespan] DB not ready (attempt " +:+ show_nat attempts +:+ ") -> " +:+ msg.

Definition ready_line : string := "[lifespan] DB ready".

Definition gave_up_line : string :=
  "[lifespan] DB not reachable after retries — starting API anyway".

(** The [while] loop of lines 19-32, from the state [(attempts, delay)].
    [db k] is what the database answers when [attempts] is [k].  The result
    is [Ok] when the loop is left for the [yield], by [break] or through its
    [else], and [Raised] when an exception leaves it.  [fuel] bounds the
    number of passes; [startup] gives enough. *)
Fixpoint connect (fuel : nat) (db : nat -> attempt) (attempts : nat)
    (delay : float) : option (result unit * list event) :=
  match fuel with
  | 0 => None
  | S fuel' =>
      if (attempts <? 20)%nat then
        match db attempts with
        | Connected => Some (Ok tt, [Attempted; Printed ready_line])
        | Operational msg =>
            let attempts := (attempts + 1)%nat in
            '(r, evs) ← connect fuel' db attempts (next_delay delay);
            Some (r, Attempted :: Printed (not_ready_line attempts msg)
                       :: Slept delay :: evs)
        | Crashed e => Some (Raised e, [Attempted])
        end
      else Some (Ok tt, [Printed gave_up_line])
  end.

(** Lines 17-34: the part of [lifespan] that runs before the [yield]. *)
Definition startup (db : nat -> attempt) : option (result unit * list event) :=
  '(r, evs) ← connect 21 db 0 1%float;
  Some (r, Printed "[lifespan] initializing…" :: evs).

(** Lines 36-38: the part that runs after the [yield]; [dispose] is the
    exception [engine.dispose()] raises, if any. *)
Definition shutdown (dispose : option exn) : result unit * list event :=
  match dispose with
  | None =>
      (Ok tt, [Printed "[lifespan] disposing engine…"; Disposed;
               Printed "[lifespan] bye"])
  | Some e => (Raised e, [Printed "[lifespan] disposing engine…"; Disposed])
  end.

(** *** Reading a trace *)

Definition message_of (a : attempt) : string :=
  match a with
  | Operational msg => msg
  | _ => ""
  end.

Definition refused (a : attempt) : Prop := ∃ msg, a = Operational msg.

(** The trace of [k] refused attempts in a row, from [(attempts, delay)]. *)
Fixpoint retries (db : nat -> attempt) (k attempts : nat) (delay : float)
    : list event :=
  match k with
  | 0 => []
  | S k' =>
      Attempted
      :: Printed (not_ready_line (attempts + 1) (message_of (db attempts)))
      :: Slept delay
      :: retries db k' (attempts + 1) (next_delay delay)
  end.

Definition sleeps (evs : list event) : list float :=
  omap (λ ev, match ev with Slept s => Some s | _ => None end) evs.

Definition attempts_made (evs : list event) : nat :=
  length (omap (λ ev, match ev with Attempted => Some () | _ => None end) evs).

(** The first [n] delays from [delay] on. *)
Fixpoint schedule (n : nat) (delay : float) : list float :=
  match n with
  | 0 => []
  | S n' => delay :: schedule n' (next_delay delay)
  end.

(** The delay after [k] refusals, starting from [delay]. *)
Fixpoint delay_after (k : nat) (delay : float) : float :=
  match k with
  | 0 => delay
  | S k' => delay_after k' (next_delay delay)
  end.

(** Between one and five seconds. *)
Definition short_wait (seconds : float) : bool :=
  (1 <=? seconds)%float && (seconds <=? 5)%float.

(** A database that refuses [k] times and then answers. *)
Definition up_after (k : nat) : nat -> attempt :=
  λ i, if (i <? k)%nat then Operational "Can't connect to MySQL server" else Connected.

(** A database that refuses [k] times; then the driver breaks. *)
Definition breaks_after (k : nat) : nat -> attempt :=
  λ i, if (i <? k)%nat then Operational "Can't connect to MySQL server"
       else Crashed (Exn "RuntimeError" true "asyncmy is not installed").

End Lifespan.

(** ** Database settings: [backend/db/session.py]

    The module body, run at import: it reads [DATABASE_URL] from the
    environment and refuses a URL with another driver. *)
Module Session.







End Session.

(** ** Basic facts about the primitives *)

Section Primitives.

Lemma fignums_nil (l : list figure) :
  merge_sort Nat.le (fig_num <$> l) = [] ↔ l = [].
Proof.
  split.
  - intros Hs.
    pose proof (merge_sort_Permutation Nat.le (fig_num <$> l)) as Hp.
    rewrite Hs in Hp. symmetry in Hp.
    apply Permutation_nil_r in Hp. by destruct l.
  - by intros ->.
Qed.

Lemma sys_stdout_write text w : sys_stdout (write text w) = sys_stdout w.
Proof. unfold write. by destruct (sys_stdout w). Qed.

Lemma amb_write text w : amb (write text w) = amb w.
Proof. unfold write. by destruct (sys_stdout w). Qed.

Lemma heap_length_write text w : length (heap (write text w)) = length (heap w).
Proof.
  unfold write. destruct (sys_stdout w); simpl; [done|].
  apply length_alter.
Qed.

Lemma set_amb_same a w : amb w = a → set_amb a w = w.
Proof. intros <-. by destruct w. Qed.

Lemma amb_started h cols w : amb (started h cols w) = amb w.
Proof. unfold started. by rewrite amb_write. Qed.

Lemma sys_stdout_started h cols w : sys_stdout (started h cols w) = sys_stdout w.
Proof. unfold started. by rewrite sys_stdout_write. Qed.


(** The new buffer is empty when [exec] starts: the notice went to the
    caller's stream. *)
Lemma started_buffer_empty h cols w :
  stdout_allocated w →
  heap (started h cols w) !! length (heap w) = Some "".
Proof.
  unfold stdout_allocated, started, write. simpl.
  destruct (sys_stdout w) as [|a]; simpl; intros Ha.
  - by rewrite list_lookup_middle.
  - rewrite list_lookup_alter_ne by lia. by rewrite list_lookup_middle.
Qed.

Lemma amb_executed h code d cols w :
  amb (executed h code d cols w) = x_amb (code_run h code d w).
Proof. done. Qed.


(** What the buffer holds when the [with] block is left is what the code
    wrote. *)
Lemma executed_buffer h code d cols w :
  stdout_allocated w →
  heap (executed h code d cols w) !! length (heap w)
  = Some (x_stdout (code_run h code d w)).
Proof.
  intros Ha. unfold executed, write. simpl.
  rewrite list_lookup_alter_eq.
  by rewrite (started_buffer_empty h cols w Ha).
Qed.

End Primitives.

(** ** The paths through the engine *)

#[local] Arguments print_line : simpl never.
#[local] Arguments write : simpl never.

Ltac unfold_engine :=
  unfold run_generated_code, try_except_Exception, with_redirect_stdout, exec,
    StringIO_new, dict_contains, dict_getitem, dict_get, columns_tolist,
    get_fignums, getvalue, print, savefig, close, gcf, raise,
    mbind, mret, py_bind, py_ret; cbn beta.

Section Paths.

Variable h : host.
Variables (code : string) (d : gmap string value) (w : world).

Let r := code_run h code d w.

(** Lines 11-12: no ['df'] in the dict. *)
Lemma run_missing_df :
  d !! "df" = None →
  run_generated_code h code d w
  = (Ok (VStr "No DataFrame provided", VStr "Missing df"), d, allocated w).
Proof.
  intros Hdf. unfold_engine. rewrite Hdf.
  rewrite bool_decide_false by (by intros [? ?]). done.
Qed.

(** Line 14 on a ['df'] that is no DataFrame: the attribute error leaves
    the function, as the line stands before the [try]. *)
Lemma run_not_frame v :
  d !! "df" = Some v → (∀ cols, v ≠ VFrame cols) →
  run_generated_code h code d w
  = (Raised (no_attribute v "columns"), d, allocated w).
Proof.
  intros Hdf Hv. unfold_engine. rewrite Hdf.
  rewrite bool_decide_true by eauto. simpl. rewrite Hdf.
  destruct v as [| | | |cols]; try done.
  by destruct (Hv cols).
Qed.

(** The first steps on a DataFrame, up to the outcome of [exec]. *)
Ltac enter Hdf cols :=
  unfold_engine; rewrite Hdf;
  rewrite bool_decide_true by eauto; simpl; rewrite Hdf; simpl;
  change (write (print_line _) (allocated w)) with (started h cols w);
  rewrite amb_started, sys_stdout_started;
  fold (code_run h code d w); fold r.

(** Lines 16-18 and 29-31: the code raises. *)
Lemma run_code_raises cols e :
  d !! "df" = Some (VFrame cols) →
  x_raised r = Some e →
  run_generated_code h code d w
  = if exn_is_Exception e then
      (Ok (VStr "Error occurred during code execution.", VStr (exn_str e)),
       x_locals r, reported e (executed h code d cols w))
    else (Raised e, x_locals r, executed h code d cols w).
Proof.
  intros Hdf Hr. enter Hdf cols. rewrite Hr. simpl. done.
Qed.

(** Lines 16-20 and 25-27: the code completes and no figure is open. *)
Lemma run_no_figure cols :
  d !! "df" = Some (VFrame cols) →
  x_raised r = None →
  registry (x_amb r) = [] →
  run_generated_code h code d w
  = (Ok (default (VStr (default "" (heap (executed h code d cols w)
                                      !! length (heap w))))
                 (x_locals r !! "result"),
         default (VStr "No summary provided.") (x_locals r !! "summary")),
     x_locals r, executed h code d cols w).
Proof.
  intros Hdf Hr Hreg. enter Hdf cols. rewrite Hr. simpl.
  rewrite Hreg. simpl. done.
Qed.

(** Lines 16-22 and 29-31: the code completes, a figure is open and the
    plot file cannot be written. *)
Lemma run_save_fails cols e :
  d !! "df" = Some (VFrame cols) →
  x_raised r = None →
  registry (x_amb r) ≠ [] →
  faults (x_amb r) !! plot_path = Some e →
  run_generated_code h code d w
  = if exn_is_Exception e then
      (Ok (VStr "Error occurred during code execution.", VStr (exn_str e)),
       x_locals r, reported e (executed h code d cols w))
    else (Raised e, x_locals r, executed h code d cols w).
Proof.
  intros Hdf Hr Hreg He. enter Hdf cols. rewrite Hr. simpl.
  rewrite bool_decide_true by (by rewrite fignums_nil).
  simpl.
  destruct (registry (x_amb r)) as [|f rest] eqn:Hfigs; [done|].
  simpl. rewrite He. simpl.
  change (set_stdout (sys_stdout w) (write (x_stdout r) _))
    with (executed h code d cols w).
  rewrite (set_amb_same (x_amb r) (executed h code d cols w))
    by apply amb_executed.
  done.
Qed.

(** Lines 16-27: the code completes, a figure is open and the plot file
    is written. *)
Lemma run_save_ok cols :
  d !! "df" = Some (VFrame cols) →
  x_raised r = None →
  registry (x_amb r) ≠ [] →
  faults (x_amb r) !! plot_path = None →
  run_generated_code h code d w
  = (Ok (default (VStr (default "" (heap (executed h code d cols w)
                                      !! length (heap w))))
                 (x_locals r !! "result"),
         default (VStr "No summary provided.") (x_locals r !! "summary")),
     x_locals r, set_amb (saved (x_amb r)) (executed h code d cols w)).
Proof.
  intros Hdf Hr Hreg He. enter Hdf cols. rewrite Hr. simpl.
  rewrite bool_decide_true by (by rewrite fignums_nil).
  simpl.
  destruct (registry (x_amb r)) as [|f rest] eqn:Hfigs; [done|].
  simpl. rewrite He. simpl.
  unfold saved. rewrite Hfigs. done.
Qed.

End Paths.

(** ** The function follows the relation *)

Lemma frame_or_not (v : value) :
  (∃ cols, v = VFrame cols) ∨ (∀ cols, v ≠ VFrame cols).
Proof. destruct v; eauto; by right. Qed.

Theorem run_generated_code_spec h code d w :
  run_spec h code d w (run_generated_code h code d w).
Proof.
  destruct (d !! "df") as [v|] eqn:Hdf.
  2: { rewrite run_missing_df by done. by constructor. }
  destruct (frame_or_not v) as [[cols ->]|Hv].
  2: { rewrite (run_not_frame h code d w v Hdf Hv). by constructor. }
  destruct (x_raised (code_run h code d w)) as [e|] eqn:Hr.
  { rewrite (run_code_raises h code d w cols e Hdf Hr).
    destruct (exn_is_Exception e) eqn:Hcls.
    - apply path_caught; [done| |done]. unfold raised_in_try. by rewrite Hr.
    - apply path_escaped; [done| |done]. unfold raised_in_try. by rewrite Hr. }
  destruct (registry (x_amb (code_run h code d w))) as [|f rest] eqn:Hreg.
  { rewrite (run_no_figure h code d w cols Hdf Hr Hreg).
    replace (executed h code d cols w) with (finished h code d cols w) at 2
      by (unfold finished; by rewrite Hreg).
    apply path_returned; [done|]. unfold raised_in_try. by rewrite Hr, Hreg. }
  assert (registry (x_amb (code_run h code d w)) ≠ []) as Hopen
    by (by rewrite Hreg).
  destruct (faults (x_amb (code_run h code d w)) !! plot_path) as [e|] eqn:Hf.
  { rewrite (run_save_fails h code d w cols e Hdf Hr Hopen Hf).
    destruct (exn_is_Exception e) eqn:Hcls.
    - apply path_caught; [done| |done].
      unfold raised_in_try. by rewrite Hr, Hreg.
    - apply path_escaped; [done| |done].
      unfold raised_in_try. by rewrite Hr, Hreg. }
  rewrite (run_save_ok h code d w cols Hdf Hr Hopen Hf).
  replace (set_amb (saved (x_amb (code_run h code d w))) (executed h code d cols w))
    with (finished h code d cols w)
    by (unfold finished; by rewrite Hreg).
  apply path_returned; [done|]. unfold raised_in_try. by rewrite Hr, Hreg.
Qed.

(** ** Facts about the world a call leaves *)

Section After.

Variables (h : host) (code : string) (d : gmap string value) (w : world).

Lemma sys_stdout_finished cols :
  sys_stdout (finished h code d cols w) = sys_stdout w.
Proof. unfold finished. by destruct (registry _). Qed.

Lemma amb_reported e w0 : amb (reported e w0) = amb w0.
Proof. apply amb_write. Qed.

(** [sys.stdout] is what it was, whatever path the call took. *)
Lemma run_sys_stdout :
  sys_stdout (world_of (run_generated_code h code d w)) = sys_stdout w.
Proof.
  destruct (run_generated_code_spec h code d w); unfold world_of; simpl;
    try done.
  - unfold reported. by rewrite sys_stdout_write.
  - apply sys_stdout_finished.
Qed.



End After.

(** ** The host and the order of calls *)


Section TwoCalls.

Variable h : host.







End TwoCalls.

(** ** The engine at work *)

(** A run that binds ['result']: the value comes back with the default
    summary, the dict holds the new name, the notice is on the console and
    the buffer, left empty, is the only one. *)
Example run_binds_result :
  run_generated_code MiniPy.interp "result = 3" frame_ab quiet
  = (Ok (VInt 3, VStr "No summary provided."),
     <["result" := VInt 3]> frame_ab,
     World Console ("[🔍] Columns in df before exec: ['a', 'b']" +:+ newline)
           [""] (Ambient [] ∅ ∅)).
Proof. reflexivity. Qed.

(** A run that prints and binds nothing: the text comes back, with its
    newline. *)
Example run_prints :
  outcome_of (run_generated_code MiniPy.interp "print('hi')" frame_ab quiet)
  = Ok (VStr ("hi" +:+ newline), VStr "No summary provided.").
Proof. reflexivity. Qed.

(** A ['df'] that is no DataFrame: line 14 raises, and nothing catches it. *)
Example run_df_not_a_frame :
  outcome_of (run_generated_code MiniPy.interp "result = 3"
                {[ "df" := VInt 5 ]} quiet)
  = Raised (Exn "AttributeError" true "'int' object has no attribute 'columns'").
Proof. reflexivity. Qed.

(** A run that plots: the figure is saved under [data/plot.png] and closed. *)
Example run_plots :
  amb (world_of (run_generated_code MiniPy.interp plots_once frame_ab quiet))
  = Ambient [] {[ plot_path := Figure 1 "" ]} ∅.
Proof. reflexivity. Qed.

(** ** Properties of the engine *)




(** C2.  A context without ['df'] gets exactly the pair
    ("No DataFrame provided", "Missing df").  The code is not executed: the
    call is the same whatever the host's [exec] would do.  No artifact is
    written: the ambient state, plot files included, is as it was. *)
Theorem C2_missing_df_pair h code d w :
  d !! "df" = None →
  outcome_of (run_generated_code h code d w)
  = Ok (VStr "No DataFrame provided", VStr "Missing df")
  ∧ (∀ h', run_generated_code h' code d w = run_generated_code h code d w)
  ∧ amb (world_of (run_generated_code h code d w)) = amb w.
Proof.
  intros Hdf. rewrite run_missing_df by done. split_and!; [done| |done].
  intros h'. by rewrite run_missing_df.
Qed.

Lemma C2_missing_df_pair_witness :
  ({[ "rows" := VInt 3 ]} : gmap string value) !! "df" = None
  ∧ outcome_of (run_generated_code MiniPy.interp "result = 1"
                  {[ "rows" := VInt 3 ]} quiet)
    = Ok (VStr "No DataFrame provided", VStr "Missing df").
Proof.
  split; [reflexivity|].
  exact (proj1 (C2_missing_df_pair MiniPy.interp "result = 1"
                  {[ "rows" := VInt 3 ]} quiet eq_refl)).
Defined.

(** C3, as stated, fails: the code below runs without raising and binds no
    ['result'], yet the first element returned is not the text it wrote
    (none) but the error message, because the figure it left open could
    not be saved. *)
Lemma C3_counterexample :
  is_Some (frame_ab !! "df")
  ∧ x_raised (code_run MiniPy.interp plots_once frame_ab no_data_dir) = None
  ∧ x_stdout (code_run MiniPy.interp plots_once frame_ab no_data_dir) = ""
  ∧ dict_of (run_generated_code MiniPy.interp plots_once frame_ab no_data_dir)
      !! "result" = None
  ∧ outcome_of (run_generated_code MiniPy.interp plots_once frame_ab no_data_dir)
    = Ok (VStr "Error occurred during code execution.",
          VStr "[Errno 2] No such file or directory: 'data/plot.png'").
Proof.
  split; [by eexists|]. by vm_compute.
Qed.

(** C3, amended.  With a DataFrame under ['df'], when the code runs without
    raising and the figure step does not fail (no figure is open, or the
    plot file can be written): the first element returned is
    [context["result"]] if the key is there after execution, and otherwise
    exactly the text the code wrote to standard output; the second is
    [context["summary"]] if present, and otherwise "No summary provided.". *)
Theorem C3_result_and_summary h code d w cols :
  d !! "df" = Some (VFrame cols) →
  stdout_allocated w →
  x_raised (code_run h code d w) = None →
  registry (x_amb (code_run h code d w)) = []
  ∨ faults (x_amb (code_run h code d w)) !! plot_path = None →
  outcome_of (run_generated_code h code d w)
  = Ok (default (VStr (x_stdout (code_run h code d w)))
                (dict_of (run_generated_code h code d w) !! "result"),
        default (VStr "No summary provided.")
                (dict_of (run_generated_code h code d w) !! "summary")).
Proof.
  intros Hdf Hw Hr Hfig.
  destruct (run_generated_code_spec h code d w)
    as [Hno | v Hv Hnf | cols' e Hd He | cols' e Hd He | cols' Hd He];
    unfold outcome_of, dict_of; cbn [fst snd].
  - congruence.
  - rewrite Hdf in Hv. injection Hv as <-. by destruct (Hnf cols).
  - unfold raised_in_try in He. rewrite Hr in He.
    destruct Hfig as [Hfig|Hfig]; rewrite Hfig in He; [done|].
    by destruct (registry _).
  - unfold raised_in_try in He. rewrite Hr in He.
    destruct Hfig as [Hfig|Hfig]; rewrite Hfig in He; [done|].
    by destruct (registry _).
  - by rewrite (executed_buffer h code d cols' w Hw).
Qed.

Lemma C3_result_and_summary_witness :
  frame_ab !! "df" = Some (VFrame ["a"; "b"])
  ∧ stdout_allocated quiet
  ∧ x_raised (code_run MiniPy.interp
                ("print('hi')" +:+ newline +:+ "summary = 'done'")
                frame_ab quiet) = None
  ∧ outcome_of (run_generated_code MiniPy.interp
                  ("print('hi')" +:+ newline +:+ "summary = 'done'")
                  frame_ab quiet)
    = Ok (VStr ("hi" +:+ newline), VStr "done").
Proof.
  split_and!; [reflexivity|exact I|reflexivity|].
  exact (C3_result_and_summary MiniPy.interp
           ("print('hi')" +:+ newline +:+ "summary = 'done'")
           frame_ab quiet ["a"; "b"] eq_refl I eq_refl (or_introl eq_refl)).
Defined.

(** C4, as stated, fails: a save that fails with [FileNotFoundError] does
    not leave the call; it comes back as the error pair. *)
Lemma C4_counterexample :
  x_raised (code_run MiniPy.interp plots_once frame_ab no_data_dir) = None
  ∧ registry (x_amb (code_run MiniPy.interp plots_once frame_ab no_data_dir))
    = [Figure 1 ""]
  ∧ outcome_of (run_generated_code MiniPy.interp plots_once frame_ab no_data_dir)
    = Ok (VStr "Error occurred during code execution.",
          VStr "[Errno 2] No such file or directory: 'data/plot.png'")
  ∧ ¬ ∃ e, outcome_of (run_generated_code MiniPy.interp plots_once frame_ab
                         no_data_dir) = Raised e.
Proof.
  split_and!; [reflexivity..|].
  intros [e He]. vm_compute in He. discriminate He.
Qed.

(** C4, amended.  The save step stands inside the [try]: when the code has
    run without raising, a figure is open and writing the plot file fails
    with [e], the engine returns the error pair if [e] is an instance of
    [Exception], and only otherwise lets [e] go on to the caller.  Either
    way nothing is written and the figure stays open. *)
Theorem C4_save_failure_caught h code d w cols e :
  d !! "df" = Some (VFrame cols) →
  x_raised (code_run h code d w) = None →
  registry (x_amb (code_run h code d w)) ≠ [] →
  faults (x_amb (code_run h code d w)) !! plot_path = Some e →
  outcome_of (run_generated_code h code d w)
  = (if exn_is_Exception e
     then Ok (VStr "Error occurred during code execution.", VStr (exn_str e))
     else Raised e)
  ∧ amb (world_of (run_generated_code h code d w)) = x_amb (code_run h code d w).
Proof.
  intros Hdf Hr Hopen Hf.
  rewrite (run_save_fails h code d w cols e Hdf Hr Hopen Hf).
  destruct (exn_is_Exception e); unfold outcome_of, world_of; cbn [fst snd];
    (split; [done|]).
  - by rewrite amb_reported, amb_executed.
  - apply amb_executed.
Qed.

Lemma C4_save_failure_caught_witness :
  frame_ab !! "df" = Some (VFrame ["a"; "b"])
  ∧ x_raised (code_run MiniPy.interp plots_once frame_ab no_data_dir) = None
  ∧ registry (x_amb (code_run MiniPy.interp plots_once frame_ab no_data_dir)) ≠ []
  ∧ outcome_of (run_generated_code MiniPy.interp plots_once frame_ab no_data_dir)
    = Ok (VStr "Error occurred during code execution.",
          VStr "[Errno 2] No such file or directory: 'data/plot.png'").
Proof.
  split_and!; [reflexivity|reflexivity|discriminate|].
  exact (proj1 (C4_save_failure_caught MiniPy.interp plots_once frame_ab
                  no_data_dir ["a"; "b"]
                  (Exn "FileNotFoundError" true
                     "[Errno 2] No such file or directory: 'data/plot.png'")
                  eq_refl eq_refl ltac:(discriminate) eq_refl)).
Defined.

(** C5, as stated, fails: the code below runs without raising and leaves
    two figures open; the engine saves the active one and closes it, and
    the other is still open when the call has returned. *)
Lemma C5_counterexample :
  x_raised (code_run MiniPy.interp plots_twice frame_ab quiet) = None
  ∧ registry (x_amb (code_run MiniPy.interp plots_twice frame_ab quiet))
    = [Figure 2 ""; Figure 1 ""]
  ∧ files (amb (world_of (run_generated_code MiniPy.interp plots_twice
                            frame_ab quiet))) !! plot_path
    = Some (Figure 2 "")
  ∧ registry (amb (world_of (run_generated_code MiniPy.interp plots_twice
                               frame_ab quiet)))
    = [Figure 1 ""]
  ∧ registry (amb (world_of (run_generated_code MiniPy.interp plots_twice
                               frame_ab quiet))) ≠ [].
Proof.
  split_and!; [reflexivity..|].
  intros H. vm_compute in H. discriminate H.
Qed.

(** C5, amended.  When the code has run without raising, figures are open
    and the plot file can be written: the engine saves the active (most
    recently activated) figure to [data/plot.png] and then closes that
    figure, and no other; the figures behind it stay open, so none is left
    open exactly when it was the only one. *)
Theorem C5_saves_and_closes_active h code d w cols f rest :
  d !! "df" = Some (VFrame cols) →
  x_raised (code_run h code d w) = None →
  registry (x_amb (code_run h code d w)) = f :: rest →
  faults (x_amb (code_run h code d w)) !! plot_path = None →
  files (amb (world_of (run_generated_code h code d w)))
  = <[plot_path := f]> (files (x_amb (code_run h code d w)))
  ∧ registry (amb (world_of (run_generated_code h code d w))) = rest
  ∧ (registry (amb (world_of (run_generated_code h code d w))) = [] ↔ rest = []).
Proof.
  intros Hdf Hr Hreg Hf.
  assert (registry (x_amb (code_run h code d w)) ≠ []) as Hopen
    by (by rewrite Hreg).
  rewrite (run_save_ok h code d w cols Hdf Hr Hopen Hf).
  unfold world_of, saved. cbn [fst snd set_amb amb files registry].
  rewrite Hreg. done.
Qed.

Lemma C5_saves_and_closes_active_witness :
  frame_ab !! "df" = Some (VFrame ["a"; "b"])
  ∧ x_raised (code_run MiniPy.interp plots_once frame_ab quiet) = None
  ∧ registry (x_amb (code_run MiniPy.interp plots_once frame_ab quiet))
    = [Figure 1 ""]
  ∧ faults (x_amb (code_run MiniPy.interp plots_once frame_ab quiet))
      !! plot_path = None
  ∧ registry (amb (world_of (run_generated_code MiniPy.interp plots_once
                               frame_ab quiet))) = [].
Proof.
  split_and!; [reflexivity..|].
  exact (proj1 (proj2 (C5_saves_and_closes_active MiniPy.interp plots_once
                         frame_ab quiet ["a"; "b"] (Figure 1 "") []
                         eq_refl eq_refl eq_refl eq_refl))).
Defined.





(** C8.  On every path out of the call, [sys.stdout] is the stream it was on
    entry, so text written to standard output afterwards does not reach the
    engine's buffer. *)
Theorem C8_capture_released h code d w :
  stdout_allocated w →
  sys_stdout (world_of (run_generated_code h code d w)) = sys_stdout w
  ∧ ∀ buf text,
      outcome_of (StringIO_new d w) = Ok buf →
      heap (write text (world_of (run_generated_code h code d w))) !! buf
      = heap (world_of (run_generated_code h code d w)) !! buf.
Proof.
  intros Hw. split; [apply run_sys_stdout|].
  intros buf text [= <-].
  pose proof (run_sys_stdout h code d w) as Hout.
  unfold write. rewrite Hout.
  unfold stdout_allocated in Hw.
  destruct (sys_stdout w) as [|a]; simpl; [done|].
  rewrite list_lookup_alter_ne by lia. done.
Qed.

Lemma C8_capture_released_witness :
  stdout_allocated quiet
  ∧ sys_stdout (world_of (run_generated_code MiniPy.interp
                            "raise ValueError('bad')" frame_ab quiet))
    = Console.
Proof.
  split; [exact I|].
  exact (proj1 (C8_capture_released MiniPy.interp "raise ValueError('bad')"
                  frame_ab quiet I)).
Defined.



(** C10.  The exit on a missing ['df'] has no effect a caller can see: the
    caller's dict is as it was, [sys.stdout] is the same stream and has
    received no text (no column notice in particular), the console and every
    buffer that existed are as they were, and so are the figures and the
    files. *)
Theorem C10_missing_df_no_effect h code d w :
  d !! "df" = None →
  dict_of (run_generated_code h code d w) = d
  ∧ sys_stdout (world_of (run_generated_code h code d w)) = sys_stdout w
  ∧ stdout_text (world_of (run_generated_code h code d w)) = stdout_text w
  ∧ console (world_of (run_generated_code h code d w)) = console w
  ∧ (∀ a s, heap w !! a = Some s →
       heap (world_of (run_generated_code h code d w)) !! a = Some s)
  ∧ amb (world_of (run_generated_code h code d w)) = amb w.
Proof.
  intros Hdf. rewrite run_missing_df by done.
  unfold dict_of, world_of, stdout_text, allocated. simpl.
  split_and!; try done.
  - destruct (sys_stdout w) as [|a]; [done|].
    destruct (decide (a < length (heap w))) as [Hlt|Hge].
    + by rewrite lookup_app_l.
    + rewrite (lookup_ge_None_2 (heap w)) by lia. simpl.
      destruct (decide (a = length (heap w))) as [->|Hne].
      * by rewrite list_lookup_middle.
      * rewrite lookup_ge_None_2; [done|]. rewrite length_app. simpl. lia.
  - intros a s Ha. rewrite lookup_app_l; [done|]. by eapply lookup_lt_Some.
Qed.

Lemma C10_missing_df_no_effect_witness :
  ({[ "rows" := VInt 3 ]} : gmap string value) !! "df" = None
  ∧ dict_of (run_generated_code MiniPy.interp "rows = 4"
               {[ "rows" := VInt 3 ]} quiet) = {[ "rows" := VInt 3 ]}
  ∧ console (world_of (run_generated_code MiniPy.interp "rows = 4"
                         {[ "rows" := VInt 3 ]} quiet)) = "".
Proof.
  pose proof (C10_missing_df_no_effect MiniPy.interp "rows = 4"
                {[ "rows" := VInt 3 ]} quiet eq_refl) as (Hd & _ & _ & Hc & _).
  split; [reflexivity|]. split; [exact Hd|exact Hc].
Defined.

(** ** More about the engine *)

Section CallerStream.






Lemma stdout_allocated_write text w :
  stdout_allocated w → stdout_allocated (write text w).
Proof.
  unfold stdout_allocated. rewrite sys_stdout_write, heap_length_write. done.
Qed.




End CallerStream.






(** X3.  With a DataFrame under ['df'], the engine itself touches one file
    only: every path other than [data/plot.png] holds after the call what
    the executed code left there.  It opens no figure (the figures left
    are those the code left, or those less the active one), and when the
    code left no figure open the plot file is as the code left it: it is
    neither rewritten nor removed. *)
Theorem engine_writes_only_the_plot_file h code d w cols :
  d !! "df" = Some (VFrame cols) →
  (∀ path, path ≠ plot_path →
     files (amb (world_of (run_generated_code h code d w))) !! path
     = files (x_amb (code_run h code d w)) !! path)
  ∧ (registry (amb (world_of (run_generated_code h code d w)))
     = registry (x_amb (code_run h code d w))
     ∨ registry (amb (world_of (run_generated_code h code d w)))
       = tail (registry (x_amb (code_run h code d w))))
  ∧ (registry (x_amb (code_run h code d w)) = [] →
     amb (world_of (run_generated_code h code d w))
     = x_amb (code_run h code d w)).
Proof.
  intros Hdf.
  destruct (run_generated_code_spec h code d w)
    as [Hno | v Hv Hnf | cols' e Hd He Hcls | cols' e Hd He Hcls | cols' Hd He];
    unfold world_of; cbn [fst snd].
  - congruence.
  - rewrite Hdf in Hv. injection Hv as <-. by destruct (Hnf cols).
  - rewrite amb_reported, amb_executed. split_and!; auto.
  - rewrite amb_executed. split_and!; auto.
  - unfold finished.
    destruct (registry (x_amb (code_run h code d w))) as [|f rest] eqn:Hreg.
    + rewrite amb_executed. split_and!; auto.
    + unfold saved. cbn [set_amb amb files registry]. rewrite Hreg.
      split_and!; [|by right|done].
      intros path Hpath. by rewrite lookup_insert_ne.
Qed.

Lemma engine_writes_only_the_plot_file_witness :
  frame_ab !! "df" = Some (VFrame ["a"; "b"])
  ∧ registry (x_amb (code_run MiniPy.interp "result = 1" frame_ab no_data_dir))
    = []
  ∧ amb (world_of (run_generated_code MiniPy.interp "result = 1" frame_ab
                     no_data_dir))
    = amb no_data_dir.
Proof.
  split_and!; [reflexivity|reflexivity|].
  exact (proj2 (proj2 (engine_writes_only_the_plot_file MiniPy.interp
                         "result = 1" frame_ab no_data_dir ["a"; "b"] eq_refl))
           eq_refl).
Defined.

(** X4.  A figure outlives a failed call.  When the code raises with a
    figure open, the call saves nothing and closes nothing.  The next call
    whose code runs without raising then writes that figure to
    [data/plot.png] and closes it, though its own code left figures and
    files alone. *)
Theorem figure_of_failed_call_saved_by_next
    h code code2 d d2 w cols cols2 e f rest :
  d !! "df" = Some (VFrame cols) →
  d2 !! "df" = Some (VFrame cols2) →
  x_raised (code_run h code d w) = Some e →
  registry (x_amb (code_run h code d w)) = f :: rest →
  faults (x_amb (code_run h code d w)) !! plot_path = None →
  x_raised (code_run h code2 d2 (world_of (run_generated_code h code d w)))
  = None →
  x_amb (code_run h code2 d2 (world_of (run_generated_code h code d w)))
  = amb (world_of (run_generated_code h code d w)) →
  amb (world_of (run_generated_code h code d w)) = x_amb (code_run h code d w)
  ∧ files (amb (world_of
       (run_generated_code h code2 d2
          (world_of (run_generated_code h code d w))))) !! plot_path
    = Some f
  ∧ registry (amb (world_of
       (run_generated_code h code2 d2
          (world_of (run_generated_code h code d w)))))
    = rest.
Proof.
  intros Hdf Hdf2 Hr Hreg Hf Hr2 Hamb2.
  assert (amb (world_of (run_generated_code h code d w))
          = x_amb (code_run h code d w)) as Hamb1.
  { rewrite (run_code_raises h code d w cols e Hdf Hr).
    destruct (exn_is_Exception e); unfold world_of; cbn [fst snd];
      by rewrite ?amb_reported, amb_executed. }
  split; [done|].
  set (w1 := world_of (run_generated_code h code d w)) in *.
  rewrite Hamb1 in Hamb2.
  assert (registry (x_amb (code_run h code2 d2 w1)) ≠ []) as Hopen
    by (by rewrite Hamb2, Hreg).
  assert (faults (x_amb (code_run h code2 d2 w1)) !! plot_path = None) as Hf2
    by (by rewrite Hamb2).
  rewrite (run_save_ok h code2 d2 w1 cols2 Hdf2 Hr2 Hopen Hf2).
  unfold world_of, saved. cbn [fst snd set_amb amb files registry].
  rewrite Hamb2, Hreg. cbn [head tail default].
  by rewrite lookup_insert_eq.
Qed.

Lemma figure_of_failed_call_saved_by_next_witness :
  frame_ab !! "df" = Some (VFrame ["a"; "b"])
  ∧ x_raised (code_run MiniPy.interp plots_then_fails frame_ab quiet)
    = Some (Exn "ValueError" true "bad")
  ∧ files (amb (world_of (run_generated_code MiniPy.interp plots_then_fails
                            frame_ab quiet))) !! plot_path
    = None
  ∧ files (amb (world_of
       (run_generated_code MiniPy.interp "result = 1" frame_ab
          (world_of (run_generated_code MiniPy.interp plots_then_fails
                       frame_ab quiet))))) !! plot_path
    = Some (Figure 1 "").
Proof.
  split_and!; [reflexivity..|].
  exact (proj1 (proj2 (figure_of_failed_call_saved_by_next MiniPy.interp
                         plots_then_fails "result = 1" frame_ab frame_ab quiet
                         ["a"; "b"] ["a"; "b"] (Exn "ValueError" true "bad")
                         (Figure 1 "") []
                         eq_refl eq_refl eq_refl eq_refl eq_refl eq_refl
                         eq_refl))).
Defined.

(** X5.  The pair alone does not tell failure from success: a run that
    fails with [e] and a run that completes, with no figure open, after
    binding ['result'] to the error message and ['summary'] to [str(e)]
    return the same pair. *)
Theorem outcome_does_not_tell_failure h code code' d d' w w' cols cols' e :
  d !! "df" = Some (VFrame cols) →
  d' !! "df" = Some (VFrame cols') →
  x_raised (code_run h code d w) = Some e →
  exn_is_Exception e = true →
  x_raised (code_run h code' d' w') = None →
  registry (x_amb (code_run h code' d' w')) = [] →
  x_locals (code_run h code' d' w') !! "result"
  = Some (VStr "Error occurred during code execution.") →
  x_locals (code_run h code' d' w') !! "summary" = Some (VStr (exn_str e)) →
  outcome_of (run_generated_code h code d w)
  = outcome_of (run_generated_code h code' d' w').
Proof.
  intros Hdf Hdf' Hr He Hr' Hreg Hres Hsum.
  rewrite (run_code_raises h code d w cols e Hdf Hr), He.
  rewrite (run_no_figure h code' d' w' cols' Hdf' Hr' Hreg).
  unfold outcome_of. cbn [fst snd]. by rewrite Hres, Hsum.
Qed.

Lemma outcome_does_not_tell_failure_witness :
  x_raised (code_run MiniPy.interp "raise ValueError('bad')" frame_ab quiet)
  = Some (Exn "ValueError" true "bad")
  ∧ x_raised (code_run MiniPy.interp looks_like_failure frame_ab quiet) = None
  ∧ outcome_of (run_generated_code MiniPy.interp "raise ValueError('bad')"
                  frame_ab quiet)
    = outcome_of (run_generated_code MiniPy.interp looks_like_failure
                    frame_ab quiet).
Proof.
  split_and!; [reflexivity|reflexivity|].
  exact (outcome_does_not_tell_failure MiniPy.interp "raise ValueError('bad')"
           looks_like_failure frame_ab frame_ab quiet quiet ["a"; "b"]
           ["a"; "b"] (Exn "ValueError" true "bad")
           eq_refl eq_refl eq_refl eq_refl eq_refl eq_refl eq_refl eq_refl).
Defined.

(** ** The start-up hook *)

Section StartUp.

Import Lifespan.

Variable db : nat → attempt.

Lemma sleeps_retries k a d : sleeps (retries db k a d) = schedule k d.
Proof.
  revert a d. induction k as [|k IH]; intros a d; [done|].
  simpl. unfold sleeps in IH. by rewrite IH.
Qed.

Lemma attempts_made_retries k a d : attempts_made (retries db k a d) = k.
Proof.
  revert a d. induction k as [|k IH]; intros a d; [done|].
  simpl. unfold attempts_made in *. simpl. by rewrite IH.
Qed.

Lemma sleeps_app evs evs' :
  sleeps (evs ++ evs') = (sleeps evs ++ sleeps evs')%list.
Proof. apply omap_app. Qed.

Lemma attempts_made_app evs evs' :
  attempts_made (evs ++ evs') = attempts_made evs + attempts_made evs'.
Proof. unfold attempts_made. by rewrite omap_app, length_app. Qed.

(** [k] refusals in a row unroll [k] passes of the loop. *)
Lemma connect_refused k : ∀ fuel a d,
  (∀ i, i < k → refused (db (a + i))) →
  (a + k ≤ 20)%nat →
  connect (k + fuel) db a d
  = '(r, evs) ← connect fuel db (a + k) (delay_after k d);
    Some (r, (retries db k a d ++ evs)%list).
Proof.
  induction k as [|k IH]; intros fuel a d Href Hle.
  - rewrite Nat.add_0_r. simpl.
    by destruct (connect fuel db a d) as [[r evs]|].
  - simpl.
    destruct (Nat.ltb_spec a 20) as [_|Hge]; [|lia].
    destruct (Href 0 ltac:(lia)) as [msg Hmsg].
    rewrite Nat.add_0_r in Hmsg. rewrite Hmsg.
    rewrite (IH fuel (a + 1) (next_delay d)).
    + replace (a + 1 + k) with (a + S k) by lia.
      simpl. by destruct (connect fuel db (a + S k) _) as [[r evs]|].
    + intros i Hi. replace (a + 1 + i) with (a + S i) by lia.
      apply Href. lia.
    + lia.
Qed.

(** With more fuel than passes left, the loop ends; it makes no more
    attempts, and sleeps no longer, than the passes left allow. *)
Lemma connect_ends fuel : ∀ a d,
  20 - a < fuel →
  ∃ r evs,
    connect fuel db a d = Some (r, evs)
    ∧ (attempts_made evs ≤ 20 - a)%nat
    ∧ sleeps evs `prefix_of` schedule (20 - a) d.
Proof.
  induction fuel as [|fuel IH]; intros a d Hfuel; [lia|].
  simpl. destruct (Nat.ltb_spec a 20) as [Hlt|Hge].
  - destruct (db a) as [|msg|e].
    + eexists _, _. split_and!; [done| |apply prefix_nil].
      change (1 ≤ 20 - a)%nat. lia.
    + destruct (IH (a + 1) (next_delay d) ltac:(lia))
        as (r & evs & -> & Hn & Hs).
      eexists _, _. split_and!; [done| |].
      * change (S (attempts_made evs) ≤ 20 - a)%nat. lia.
      * replace (20 - a) with (S (20 - (a + 1))) by lia.
        change (d :: sleeps evs
                `prefix_of` d :: schedule (20 - (a + 1)) (next_delay d)).
        by apply prefix_cons.
    + eexists _, _. split_and!; [done| |apply prefix_nil].
      change (1 ≤ 20 - a)%nat. lia.
  - eexists _, _. split_and!; [done| |apply prefix_nil].
    change (0 ≤ 20 - a)%nat. lia.
Qed.

Lemma schedule_short_waits :
  Forall (λ s, short_wait s = true) (schedule 20 1%float).
Proof. repeat (constructor; [reflexivity|]). constructor. Qed.

End StartUp.

(** X6.  When the database refuses the first [k] attempts, [k] below 20,
    and accepts the next, start-up succeeds after [k + 1] attempts and [k]
    sleeps: it prints the opening line, one "not ready" line per refusal,
    numbered from 1 and each followed by a sleep, and "DB ready" last. *)
Theorem startup_ready_after_refusals (db : nat → Lifespan.attempt) k :
  k < 20 →
  (∀ i, i < k → Lifespan.refused (db i)) →
  db k = Lifespan.Connected →
  Lifespan.startup db
  = Some (Ok tt,
          Lifespan.Printed "[lifespan] initializing…"
          :: (Lifespan.retries db k 0 1%float
              ++ [Lifespan.Attempted; Lifespan.Printed "[lifespan] DB ready"])%list)
  ∧ Lifespan.attempts_made
      (Lifespan.retries db k 0 1%float ++ [Lifespan.Attempted])%list = S k
  ∧ Lifespan.sleeps (Lifespan.retries db k 0 1%float)
    = Lifespan.schedule k 1%float.
Proof.
  intros Hk Href Hup. split_and!.
  - unfold Lifespan.startup.
    replace 21 with (k + S (20 - k)) by lia.
    rewrite (connect_refused db k) by (done || lia).
    simpl. destruct (Nat.ltb_spec k 20) as [_|Hge]; [|lia].
    by rewrite Hup.
  - rewrite attempts_made_app, attempts_made_retries.
    change (Lifespan.attempts_made [Lifespan.Attempted]) with 1. lia.
  - apply sleeps_retries.
Qed.

Lemma startup_ready_after_refusals_witness :
  3 < 20
  ∧ (∀ i, i < 3 → Lifespan.refused (Lifespan.up_after 3 i))
  ∧ Lifespan.up_after 3 3 = Lifespan.Connected
  ∧ fst <$> Lifespan.startup (Lifespan.up_after 3) = Some (Ok tt).
Proof.
  assert (∀ i, i < 3 → Lifespan.refused (Lifespan.up_after 3 i)) as Href.
  { intros [|[|[|i]]] Hi; [by eexists..|lia]. }
  split_and!; [lia|exact Href|reflexivity|].
  rewrite (proj1 (startup_ready_after_refusals (Lifespan.up_after 3) 3
                    ltac:(lia) Href eq_refl)).
  reflexivity.
Defined.

(** X7.  When the database refuses twenty attempts in a row, start-up stops
    trying and the application starts all the same: exactly twenty attempts
    are made, each refusal is followed by a sleep, the last one included,
    and the closing line says the database was not reached.  What the
    database would answer to a twenty-first attempt plays no part. *)
Theorem startup_gives_up_after_twenty (db : nat → Lifespan.attempt) :
  (∀ i, i < 20 → Lifespan.refused (db i)) →
  Lifespan.startup db
  = Some (Ok tt,
          Lifespan.Printed "[lifespan] initializing…"
          :: (Lifespan.retries db 20 0 1%float
              ++ [Lifespan.Printed Lifespan.gave_up_line])%list)
  ∧ Lifespan.attempts_made (Lifespan.retries db 20 0 1%float) = 20
  ∧ length (Lifespan.sleeps (Lifespan.retries db 20 0 1%float)) = 20.
Proof.
  intros Href. split_and!.
  - unfold Lifespan.startup.
    change 21 with (20 + 1).
    by rewrite (connect_refused db 20) by (done || lia).
  - apply attempts_made_retries.
  - by rewrite sleeps_retries.
Qed.

Lemma startup_gives_up_after_twenty_witness :
  (∀ i, i < 20 → Lifespan.refused (Lifespan.up_after 25 i))
  ∧ fst <$> Lifespan.startup (Lifespan.up_after 25) = Some (Ok tt).
Proof.
  assert (∀ i, i < 20 → Lifespan.refused (Lifespan.up_after 25 i)) as Href.
  { intros i Hi. unfold Lifespan.up_after.
    destruct (Nat.ltb_spec i 25) as [_|Hge]; [by eexists|lia]. }
  split; [exact Href|].
  rewrite (proj1 (startup_gives_up_after_twenty (Lifespan.up_after 25) Href)).
  reflexivity.
Defined.

(** X8.  An exception other than [OperationalError] is not retried: it
    leaves [lifespan] at the attempt that raised it, after the refusals
    before it, so start-up fails.  No further attempt is made and nothing
    is printed after it. *)
Theorem startup_fails_on_other_errors (db : nat → Lifespan.attempt) k e :
  k < 20 →
  (∀ i, i < k → Lifespan.refused (db i)) →
  db k = Lifespan.Crashed e →
  Lifespan.startup db
  = Some (Raised e,
          Lifespan.Printed "[lifespan] initializing…"
          :: (Lifespan.retries db k 0 1%float ++ [Lifespan.Attempted])%list).
Proof.
  intros Hk Href Hup.
  unfold Lifespan.startup.
  replace 21 with (k + S (20 - k)) by lia.
  rewrite (connect_refused db k) by (done || lia).
  simpl. destruct (Nat.ltb_spec k 20) as [_|Hge]; [|lia].
  by rewrite Hup.
Qed.

Lemma startup_fails_on_other_errors_witness :
  1 < 20
  ∧ (∀ i, i < 1 → Lifespan.refused (Lifespan.breaks_after 1 i))
  ∧ fst <$> Lifespan.startup (Lifespan.breaks_after 1)
    = Some (Raised (Exn "RuntimeError" true "asyncmy is not installed")).
Proof.
  assert (∀ i, i < 1 → Lifespan.refused (Lifespan.breaks_after 1 i)) as Href.
  { intros [|i] Hi; [by eexists|lia]. }
  split_and!; [lia|exact Href|].
  rewrite (startup_fails_on_other_errors (Lifespan.breaks_after 1) 1
             (Exn "RuntimeError" true "asyncmy is not installed")
             ltac:(lia) Href eq_refl).
  reflexivity.
Defined.

(** X9.  Whatever the database answers, the start-up part of [lifespan]
    ends, having made at most twenty attempts and slept at most twenty
    times, each time for at least one and at most five seconds (on the
    floats of the code: 1.0 grown by 1.6 and capped at 5.0). *)
Theorem startup_is_bounded (db : nat → Lifespan.attempt) :
  ∃ r evs,
    Lifespan.startup db = Some (r, evs)
    ∧ (Lifespan.attempts_made evs ≤ 20)%nat
    ∧ (length (Lifespan.sleeps evs) ≤ 20)%nat
    ∧ Forall (λ s, Lifespan.short_wait s = true) (Lifespan.sleeps evs).
Proof.
  destruct (connect_ends db 21 0 1%float ltac:(lia)) as (r & evs & Hc & Hn & Hs).
  exists r, (Lifespan.Printed "[lifespan] initializing…" :: evs).
  unfold Lifespan.startup. rewrite Hc.
  change (Lifespan.attempts_made (Lifespan.Printed _ :: evs))
    with (Lifespan.attempts_made evs).
  change (Lifespan.sleeps (Lifespan.Printed _ :: evs))
    with (Lifespan.sleeps evs).
  destruct Hs as [rest Hrest].
  pose proof schedule_short_waits as Hall.
  change (20 - 0) with 20 in Hrest. rewrite Hrest in Hall.
  apply Forall_app in Hall as [Hall _].
  split_and!; [done|lia| |done].
  apply (f_equal length) in Hrest. rewrite length_app in Hrest.
  assert (length (Lifespan.schedule 20 1%float) = 20) as Hlen by reflexivity.
  lia.
Qed.

(** ** The database settings *)



